(** * Optimal execution with permanent price impact: the closed-form model

    Shallow embedding of [src/main.py]: [TraderUtility] (the model
    evaluator) and [OptimalTradingStrategy] (the sweep over the configured
    values of phi).

    Numeric model.  The program computes in binary64.  Here a finite
    binary64 value is an exact real number: rounding and the finite range
    of the format (hence the [OverflowError] of [math.exp] on very large
    arguments) are outside the model.  The exceptional values of the format
    are kept, because the program produces them: NumPy scalar arithmetic
    does not raise on a zero divisor or on the square root of a negative
    number, it returns an infinity or NaN.  The sign of a zero is not
    represented; a zero divisor is read as [+0].  Plain Python division of
    two Python numbers raises [ZeroDivisionError] on a zero divisor. *)

From Stdlib Require Import Reals Lra Lia Bool String List.
Import ListNotations.

Open Scope R_scope.

(** ** binary64 values and NumPy scalar arithmetic *)

Module Float64.

Inductive float64 : Type :=
| Fin (x : R)
| Inf (negative : bool)
| NaN.

Definition sign_neg (x : R) : bool :=
  if Rlt_dec x 0 then true else false.

(** A finite factor [x] applied to an infinity of sign [s]. *)
Definition scale_inf (x : R) (s : bool) : float64 :=
  if Req_dec_T x 0 then NaN else Inf (xorb (sign_neg x) s).

Definition neg (a : float64) : float64 :=
  match a with
  | Fin x => Fin (- x)
  | Inf s => Inf (negb s)
  | NaN => NaN
  end.

Definition add (a b : float64) : float64 :=
  match a, b with
  | NaN, _ | _, NaN => NaN
  | Fin x, Fin y => Fin (x + y)
  | Fin _, Inf s | Inf s, Fin _ => Inf s
  | Inf s, Inf s' => if Bool.eqb s s' then Inf s else NaN
  end.

Definition sub (a b : float64) : float64 := add a (neg b).

Definition mul (a b : float64) : float64 :=
  match a, b with
  | NaN, _ | _, NaN => NaN
  | Fin x, Fin y => Fin (x * y)
  | Fin x, Inf s | Inf s, Fin x => scale_inf x s
  | Inf s, Inf s' => Inf (xorb s s')
  end.

(** [np.float64 / np.float64]: no exception, a zero divisor gives an
    infinity (or NaN for [0/0]). *)
Definition div (a b : float64) : float64 :=
  match a, b with
  | NaN, _ | _, NaN => NaN
  | Fin x, Fin y => if Req_dec_T y 0 then scale_inf x false else Fin (x / y)
  | Fin _, Inf _ => Fin 0
  | Inf s, Fin y => Inf (xorb s (sign_neg y))
  | Inf _, Inf _ => NaN
  end.

(** [np.sqrt] on a scalar. *)
Definition np_sqrt (a : float64) : float64 :=
  match a with
  | Fin x => if Rlt_dec x 0 then NaN else Fin (sqrt x)
  | Inf false => Inf false
  | Inf true => NaN
  | NaN => NaN
  end.

(** [math.exp]. *)
Definition math_exp (a : float64) : float64 :=
  match a with
  | Fin x => Fin (exp x)
  | Inf false => Inf false
  | Inf true => Fin 0
  | NaN => NaN
  end.

Definition is_finite (a : float64) : bool :=
  match a with
  | Fin _ => true
  | _ => false
  end.

Definition is_nan (a : float64) : bool :=
  match a with
  | NaN => true
  | _ => false
  end.

End Float64.

Import Float64.

Declare Scope f64_scope.
Delimit Scope f64_scope with f64.
Bind Scope f64_scope with float64.
Infix "+" := add : f64_scope.
Infix "-" := sub : f64_scope.
Infix "*" := mul : f64_scope.
Infix "/" := div : f64_scope.
Notation "- x" := (neg x) : f64_scope.

(** ** Python results *)

Inductive exception : Type :=
| ZeroDivisionError.

Inductive result (A : Type) : Type :=
| Ok (a : A)
| Raise (e : exception).

Arguments Ok {A} a.
Arguments Raise {A} e.

Definition bind {A B : Type} (m : result A) (f : A -> result B) : result B :=
  match m with
  | Ok a => f a
  | Raise e => Raise e
  end.

Notation "x <- m ;; k" := (bind m (fun x => k))
  (at level 61, m at next level, right associativity).

(** [x / y] on two Python numbers. *)
Definition py_truediv (x y : R) : result R :=
  if Req_dec_T y 0 then Raise ZeroDivisionError else Ok (x / y).

(** ** NumPy arrays *)

Definition ndarray : Type := list float64.

(** [y[-1] = stop] *)
Definition set_last (y : list R) (stop : R) : list R :=
  match y with
  | [] => []
  | _ :: _ => removelast y ++ [stop]
  end.

(** [np.linspace(start, stop, num)] with the default [endpoint=True], as
    NumPy computes it: [arange(0, num) * step + start] with
    [step = (stop - start) / (num - 1)], the last element overwritten
    with [stop]. *)
Definition linspace (start stop : R) (num : nat) : ndarray :=
  let div := INR (num - 1) in
  let delta := stop - start in
  let y := map INR (seq 0 num) in
  let y :=
    if (0 <? num - 1)%nat then
      let step := delta / div in
      if Req_dec_T step 0
      then map (fun v => v / div * delta) y
      else map (fun v => v * step) y
    else map (fun v => v * delta) y in
  let y := map (fun v => v + start) y in
  let y := if (1 <? num)%nat then set_last y stop else y in
  map Fin y.

(** ** TraderUtility *)

Module TraderUtility.

Definition compute_zeta (alpha b phi k : R) : float64 :=
  ((Fin (alpha - b / 2) + np_sqrt (Fin (phi * k)))
   / (Fin (alpha - b / 2) - np_sqrt (Fin (phi * k))))%f64.

(** The denominator both loops recompute at every sample. *)
Definition sinh_gamma_T (zeta gamma : float64) (time_scale : R) : float64 :=
  (zeta * math_exp (gamma * Fin time_scale)
   - math_exp (- gamma * Fin time_scale))%f64.

(** The body of the loop of [compute_inventory] at sample time [t]. *)
Definition inventory_sample (R_ : R) (zeta gamma : float64)
    (time_scale : R) (t : float64) : float64 :=
  (let T_t := Fin time_scale - t in
   let sinh_gamma_T_t :=
     zeta * math_exp (gamma * T_t) - math_exp (- gamma * T_t) in
   let sinh_gamma_T := sinh_gamma_T zeta gamma time_scale in
   let inventory := Fin R_ * (sinh_gamma_T_t / sinh_gamma_T) in
   inventory)%f64.

Definition compute_inventory (no_of_shares alpha b phi k time_scale : R)
    : result (ndarray * ndarray) :=
  let R_ := no_of_shares in
  let time_steps := linspace 0 time_scale 50 in
  let zeta := compute_zeta alpha b phi k in
  q <- py_truediv phi k ;;
  let gamma := np_sqrt (Fin q) in
  let res := map (inventory_sample R_ zeta gamma time_scale) time_steps in
  Ok (res, time_steps).

(** The body of the loop of [compute_trading_speed] at sample time [t]. *)
Definition trading_speed_sample (R_ : R) (zeta gamma : float64)
    (time_scale : R) (t : float64) : float64 :=
  (let T_t := Fin time_scale - t in
   let coshh_gamma_T_t :=
     gamma * (zeta * math_exp (gamma * T_t) + math_exp (- gamma * T_t)) in
   let sinh_gamma_T := sinh_gamma_T zeta gamma time_scale in
   let trading_speed := Fin R_ * (coshh_gamma_T_t / sinh_gamma_T) in
   trading_speed)%f64.

Definition compute_trading_speed (no_of_shares alpha b phi k time_scale : R)
    : result (ndarray * ndarray) :=
  let R_ := no_of_shares in
  let time_steps := linspace 0 time_scale 50 in
  let zeta := compute_zeta alpha b phi k in
  q <- py_truediv phi k ;;
  let gamma := np_sqrt (Fin q) in
  let res := map (trading_speed_sample R_ zeta gamma time_scale) time_steps in
  Ok (res, time_steps).

End TraderUtility.

Import TraderUtility.

(** ** The closed form, as the specification writes it *)

Module ClosedForm.

Definition zeta (alpha b phi k : R) : R :=
  (alpha - b / 2 + sqrt (phi * k)) / (alpha - b / 2 - sqrt (phi * k)).

Definition gamma (phi k : R) : R := sqrt (phi / k).


(** [zeta * e^(gamma * T) - e^(- gamma * T)] *)
Definition shared_denominator (z g T : R) : R :=
  z * exp (g * T) - exp (- g * T).

Definition q (R_ z g T t : R) : R :=
  R_ * (z * exp (g * (T - t)) - exp (- g * (T - t)))
  / (z * exp (g * T) - exp (- g * T)).

Definition v (R_ z g T t : R) : R :=
  R_ * g * (z * exp (g * (T - t)) + exp (- g * (T - t)))
  / (z * exp (g * T) - exp (- g * T)).

(** The [i]-th of [n] uniformly spaced times over [[0, T]]. *)
Definition grid (T : R) (n i : nat) : R := INR i * T / INR (n - 1).

End ClosedForm.

(** ** Python dictionaries

    Insertion-ordered, one entry per key: assigning to a key that is
    present replaces its value in place. *)

Section Dict.

Context {K V : Type} (eq_dec : forall x y : K, {x = y} + {x <> y}).

Definition dict : Type := list (K * V).

Fixpoint dict_set (d : dict) (key : K) (v : V) : dict :=
  match d with
  | [] => [(key, v)]
  | (key', v') :: d' =>
      if eq_dec key key' then (key', v) :: d'
      else (key', v') :: dict_set d' key v
  end.

Fixpoint dict_get (d : dict) (key : K) : option V :=
  match d with
  | [] => None
  | (key', v') :: d' =>
      if eq_dec key key' then Some v' else dict_get d' key
  end.

Definition keys (d : dict) : list K := map fst d.

End Dict.

Arguments dict : clear implicits.

(** ** OptimalTradingStrategy *)

Module OptimalTradingStrategy.

(** The ["model"] section of the configuration: the three entries the
    program reads, and whatever other numeric entries the section holds. *)
Record params : Type := {
  b : R;
  k : R;
  phi : list R;
  other_entries : list (string * R)
}.

(** [{"inventory": ..., "time": ...}] and [{"trading_speed": ..., "time": ...}] *)
Definition entry : Type := dict string ndarray.

Record self : Type := {
  _params : params;
  trading_speed : dict R entry;
  inventory : dict R entry
}.

Definition _init_params (model : params) : self :=
  {| _params := model; trading_speed := []; inventory := [] |}.

Fixpoint _gen_inventory_loop (ps : list R) (s : self) : result self :=
  match ps with
  | [] => Ok s
  | p :: ps' =>
      axis <- compute_inventory 100 1000000000 (b (_params s)) p
                (k (_params s)) 1 ;;
      _gen_inventory_loop ps'
        {| _params := _params s;
           trading_speed := trading_speed s;
           inventory :=
             dict_set Req_dec_T (inventory s) p
               [("inventory"%string, fst axis); ("time"%string, snd axis)] |}
  end.

Definition _gen_inventory (s : self) : result self :=
  _gen_inventory_loop (phi (_params s)) s.

Fixpoint _gen_trading_speed_loop (ps : list R) (s : self) : result self :=
  match ps with
  | [] => Ok s
  | p :: ps' =>
      axis <- compute_trading_speed 100 1000000000 (b (_params s)) p
                (k (_params s)) 1 ;;
      _gen_trading_speed_loop ps'
        {| _params := _params s;
           trading_speed :=
             dict_set Req_dec_T (trading_speed s) p
               [("trading_speed"%string, fst axis); ("time"%string, snd axis)];
           inventory := inventory s |}
  end.

Definition _gen_trading_speed (s : self) : result self :=
  _gen_trading_speed_loop (phi (_params s)) s.

(** [model] is [ConfigurationFactory.create_config()["model"]]. *)
Definition __init__ (model : params) : result self :=
  let s := _init_params model in
  s <- _gen_inventory s ;;
  s <- _gen_trading_speed s ;;
  Ok s.

End OptimalTradingStrategy.

(** ** PlottingEngine

    Matplotlib is outside the program.  A drawing is the sequence of
    [plot] calls the function issues, in order, together with the
    exception, if any, that stopped it.  The formatting calls (titles,
    ticks, labels, grid, legend, [show]) issue no curve and are left out;
    the label [r'$\phi = {}$'.format(p)] is kept as the number [p]. *)

Module PlottingEngine.

Inductive dict_key : Type :=
| StrKey (s : string)
| NumKey (r : R).

Inductive py_error : Type :=
| IndexError
| KeyError (key : dict_key).

Inductive outcome (A : Type) : Type :=
| Done (a : A)
| Fail (e : py_error).

Arguments Done {A} a.
Arguments Fail {A} e.

Definition and_then {A B : Type} (m : outcome A) (f : A -> outcome B)
    : outcome B :=
  match m with
  | Done a => f a
  | Fail e => Fail e
  end.

(** [mapping[p]] *)
Definition getitem (d : dict R OptimalTradingStrategy.entry) (p : R)
    : outcome OptimalTradingStrategy.entry :=
  match dict_get Req_dec_T d p with
  | Some e => Done e
  | None => Fail (KeyError (NumKey p))
  end.

(** [entry["name"]] *)
Definition getitem_str (e : OptimalTradingStrategy.entry) (name : string)
    : outcome ndarray :=
  match dict_get string_dec e name with
  | Some a => Done a
  | None => Fail (KeyError (StrKey name))
  end.

(** [colours[idx]] for a nonnegative index *)
Definition list_getitem (l : list string) (idx : nat) : outcome string :=
  match nth_error l idx with
  | Some c => Done c
  | None => Fail IndexError
  end.

Inductive axes_id : Type :=
| current_axes
| ax1
| ax2.

Record plot_call : Type := {
  axes : axes_id;
  x : ndarray;
  y : ndarray;
  label : R;
  alpha : option R;
  color : option string
}.

Definition drawing : Type := (list plot_call * option py_error)%type.

(** A [for] loop over the keys that issues one [plot] call per key. *)
Fixpoint draw (call : nat -> R -> outcome plot_call) (idx : nat)
    (ps : list R) : drawing :=
  match ps with
  | [] => ([], None)
  | p :: ps' =>
      match call idx p with
      | Fail e => ([], Some e)
      | Done c => let (cs, r) := draw call (S idx) ps' in (c :: cs, r)
      end
  end.

Definition plot_inventory_call (model : OptimalTradingStrategy.self)
    (idx : nat) (p : R) : outcome plot_call :=
  and_then (getitem (OptimalTradingStrategy.inventory model) p) (fun e =>
  and_then (getitem_str e "inventory") (fun xs =>
  and_then (getitem (OptimalTradingStrategy.inventory model) p) (fun e' =>
  and_then (getitem_str e' "time") (fun ys =>
  Done {| axes := current_axes; x := xs; y := ys; label := p;
          alpha := None; color := None |})))).


Definition colours : list string :=
  ["blueviolet"; "seagreen"; "red"; "deepskyblue"]%string.

Definition ax1_call (model : OptimalTradingStrategy.self)
    (idx : nat) (p : R) : outcome plot_call :=
  and_then (getitem (OptimalTradingStrategy.inventory model) p) (fun e =>
  and_then (getitem_str e "time") (fun xs =>
  and_then (getitem (OptimalTradingStrategy.inventory model) p) (fun e' =>
  and_then (getitem_str e' "inventory") (fun ys =>
  and_then (list_getitem colours idx) (fun c =>
  Done {| axes := ax1; x := xs; y := ys; label := p;
          alpha := Some (1 / 2); color := Some c |}))))).

Definition ax2_call (model : OptimalTradingStrategy.self)
    (idx : nat) (p : R) : outcome plot_call :=
  and_then (getitem (OptimalTradingStrategy.trading_speed model) p) (fun e =>
  and_then (getitem_str e "time") (fun xs =>
  and_then (getitem (OptimalTradingStrategy.trading_speed model) p) (fun e' =>
  and_then (getitem_str e' "trading_speed") (fun ys =>
  and_then (list_getitem colours idx) (fun c =>
  Done {| axes := ax2; x := xs; y := ys; label := p;
          alpha := Some (1 / 2); color := Some c |}))))).

Definition plot_inventory_and_trading_speed
    (model : OptimalTradingStrategy.self) : drawing :=
  let (c1, r1) :=
    draw (ax1_call model) 0 (keys (OptimalTradingStrategy.inventory model)) in
  match r1 with
  | Some e => (c1, Some e)
  | None =>
      let (c2, r2) :=
        draw (ax2_call model) 0
          (keys (OptimalTradingStrategy.trading_speed model)) in
      (c1 ++ c2, r2)
  end.

End PlottingEngine.

(** ** A configuration for the examples

    b = 0.001, k = 0.01, three values of phi, and a configured time
    horizon that the program never reads. *)

Definition example_model : OptimalTradingStrategy.params :=
  {| OptimalTradingStrategy.b := 1 / 1000;
     OptimalTradingStrategy.k := 1 / 100;
     OptimalTradingStrategy.phi := [1 / 1000; 1 / 100; 1 / 10];
     OptimalTradingStrategy.other_entries := [("time_horizon"%string, 5)] |}.

(** ** The common shape of the two loops

    Each loop of [OptimalTradingStrategy] computes one entry per phi and
    assigns it under that phi; [sweep] is that loop on the mapping alone. *)

Module OTS := OptimalTradingStrategy.

Fixpoint sweep (f : R -> result OTS.entry) (ps : list R)
    (d : dict R OTS.entry) : result (dict R OTS.entry) :=
  match ps with
  | [] => Ok d
  | p :: ps' => e <- f p ;; sweep f ps' (dict_set Req_dec_T d p e)
  end.

Definition inventory_entry (b k p : R) : result OTS.entry :=
  axis <- compute_inventory 100 1000000000 b p k 1 ;;
  Ok [("inventory"%string, fst axis); ("time"%string, snd axis)].

Definition trading_speed_entry (b k p : R) : result OTS.entry :=
  axis <- compute_trading_speed 100 1000000000 b p k 1 ;;
  Ok [("trading_speed"%string, fst axis); ("time"%string, snd axis)].

(** ** The sampling grid *)

Section Linspace.

Lemma set_last_length (y : list R) (stop : R) :
  length (set_last y stop) = length y.
Proof.
  destruct y as [|a y]; [reflexivity|].
  unfold set_last. rewrite length_app, removelast_firstn_len, length_firstn.
  simpl length. lia.
Qed.

Lemma set_last_nth_error (y : list R) (stop : R) (i : nat) :
  (i < length y)%nat ->
  nth_error (set_last y stop) i =
  if (i =? pred (length y))%nat then Some stop else nth_error y i.
Proof.
  intros Hi. destruct y as [|a y]; [simpl in Hi; lia|].
  unfold set_last. rewrite removelast_firstn_len.
  set (l := a :: y) in *.
  assert (Hlen : length (firstn (pred (length l)) l) = pred (length l))
    by (rewrite length_firstn; lia).
  destruct (Nat.eqb_spec i (pred (length l))) as [->|Hne].
  - rewrite nth_error_app2 by lia. rewrite Hlen, Nat.sub_diag. reflexivity.
  - rewrite nth_error_app1 by lia. rewrite nth_error_firstn.
    destruct (Nat.ltb_spec i (pred (length l))); [reflexivity|lia].
Qed.

Lemma linspace_length (start stop : R) (num : nat) :
  length (linspace start stop num) = num.
Proof.
  unfold linspace.
  rewrite length_map.
  destruct (1 <? num)%nat; [rewrite set_last_length|];
    rewrite length_map;
    destruct (0 <? num - 1)%nat; [destruct (Req_dec_T _ _)| |destruct (Req_dec_T _ _)|];
    rewrite !length_map, length_seq; reflexivity.
Qed.

(** Every element of the grid is finite and sits at its uniform position;
    the overwritten last element is the position [num - 1] as well. *)
Lemma linspace_nth_error (start stop : R) (num i : nat) :
  (1 < num)%nat -> (i < num)%nat ->
  nth_error (linspace start stop num) i =
  Some (Fin (start + INR i * (stop - start) / INR (num - 1))).
Proof.
  intros Hnum Hi. unfold linspace.
  assert (Hd : INR (num - 1) <> 0) by (apply not_0_INR; lia).
  destruct (Nat.ltb_spec 0 (num - 1)) as [_|]; [|lia].
  destruct (Nat.ltb_spec 1 num) as [_|]; [|lia].
  set (y := map (fun v => v + start) _).
  assert (Hy : forall j, (j < num)%nat ->
            nth_error y j =
            Some (start + INR j * (stop - start) / INR (num - 1))).
  { intros j Hj. unfold y.
    destruct (Req_dec_T ((stop - start) / INR (num - 1)) 0) as [Hz|Hz];
      rewrite !nth_error_map, nth_error_seq;
      (destruct (Nat.ltb_spec j num); [|lia]); simpl; f_equal.
    - assert (Hdelta : 0 = stop - start).
      { apply Rmult_eq_compat_r with (r := INR (num - 1)) in Hz.
        unfold Rdiv in Hz. rewrite Rmult_assoc, Rinv_l in Hz by assumption.
        lra. }
      replace (stop - start) with 0. field. assumption.
    - field. assumption. }
  assert (Hlen : length y = num)
    by (unfold y; destruct (Req_dec_T _ _);
        rewrite !length_map, length_seq; reflexivity).
  rewrite nth_error_map, set_last_nth_error by lia. rewrite Hlen.
  destruct (Nat.eqb_spec i (pred num)) as [->|Hne]; simpl.
  - do 2 f_equal. replace (pred num) with (num - 1)%nat by lia.
    field. assumption.
  - rewrite Hy by assumption. reflexivity.
Qed.

Lemma linspace_50 (T : R) (i : nat) :
  (i < 50)%nat ->
  nth_error (linspace 0 T 50) i = Some (Fin (ClosedForm.grid T 50 i)).
Proof.
  intros Hi. rewrite linspace_nth_error by lia.
  unfold ClosedForm.grid. do 2 f_equal. simpl (50 - 1)%nat.
  assert (INR 49 <> 0) by (apply not_0_INR; lia).
  field. assumption.
Qed.

Lemma linspace_all_finite (start stop : R) (num : nat) :
  Forall (fun t => is_finite t = true) (linspace start stop num).
Proof.
  unfold linspace. apply Forall_forall. intros t Ht.
  apply in_map_iff in Ht as (x & <- & _). reflexivity.
Qed.

End Linspace.

(** ** Evaluation of the arithmetic *)

Section Arithmetic.






Lemma mul_nan_r (a : float64) : (a * NaN)%f64 = NaN.
Proof. destruct a; reflexivity. Qed.

Lemma div_nan_r (a : float64) : (a / NaN)%f64 = NaN.
Proof. destruct a; reflexivity. Qed.


Lemma add_nan_r (a : float64) : (a + NaN)%f64 = NaN.
Proof. destruct a; reflexivity. Qed.

Lemma np_sqrt_nonneg (x : R) : 0 <= x -> np_sqrt (Fin x) = Fin (sqrt x).
Proof. intros Hx. simpl. destruct (Rlt_dec x 0); [lra|reflexivity]. Qed.



Lemma map_const {A B : Type} (f : A -> B) (c : B) (l : list A) :
  (forall x, In x l -> f x = c) -> map f l = repeat c (length l).
Proof.
  induction l as [|a l IH]; intros H; [reflexivity|].
  simpl. rewrite (H a) by (left; reflexivity).
  rewrite IH by (intros x Hx; apply H; right; exact Hx). reflexivity.
Qed.

End Arithmetic.

(** ** The model evaluator on regular inputs *)

Section Evaluator.

Import ClosedForm.


(** With a nonzero divisor Python's division returns, and both functions
    are the map of their loop body over the grid. *)
Lemma compute_inventory_ok (R_ alpha b phi k T : R) :
  k <> 0 ->
  compute_inventory R_ alpha b phi k T =
  Ok (map (inventory_sample R_ (compute_zeta alpha b phi k)
             (np_sqrt (Fin (phi / k))) T) (linspace 0 T 50),
      linspace 0 T 50).
Proof.
  intros Hk. unfold compute_inventory, py_truediv.
  destruct (Req_dec_T k 0); [contradiction|reflexivity].
Qed.

Lemma compute_trading_speed_ok (R_ alpha b phi k T : R) :
  k <> 0 ->
  compute_trading_speed R_ alpha b phi k T =
  Ok (map (trading_speed_sample R_ (compute_zeta alpha b phi k)
             (np_sqrt (Fin (phi / k))) T) (linspace 0 T 50),
      linspace 0 T 50).
Proof.
  intros Hk. unfold compute_trading_speed, py_truediv.
  destruct (Req_dec_T k 0); [contradiction|reflexivity].
Qed.

Lemma sinh_gamma_T_fin (z g T : R) :
  sinh_gamma_T (Fin z) (Fin g) T = Fin (shared_denominator z g T).
Proof.
  unfold sinh_gamma_T, shared_denominator. reflexivity.
Qed.




End Evaluator.

(** ** Where the closed form is regular *)

Section RegularRegion.

Import ClosedForm.






End RegularRegion.

(** ** The model evaluator on singular and invalid inputs *)

Section Singular.

Import ClosedForm.

Lemma compute_inventory_k_zero (R_ alpha b phi T : R) :
  compute_inventory R_ alpha b phi 0 T = Raise ZeroDivisionError.
Proof.
  unfold compute_inventory, py_truediv.
  destruct (Req_dec_T 0 0); [reflexivity|contradiction].
Qed.




Lemma inventory_sample_nan_zeta (R_ : R) (gamma : float64) (T : R) (t : float64) :
  inventory_sample R_ NaN gamma T t = NaN.
Proof. reflexivity. Qed.

Lemma trading_speed_sample_nan_zeta (R_ : R) (gamma : float64) (T : R) (t : float64) :
  trading_speed_sample R_ NaN gamma T t = NaN.
Proof.
  unfold trading_speed_sample. cbn [mul add]. rewrite mul_nan_r. reflexivity.
Qed.





Lemma div_zero_zero (x y : R) : x = 0 -> y = 0 -> (Fin x / Fin y)%f64 = NaN.
Proof.
  intros -> ->. simpl. destruct (Req_dec_T 0 0); [|contradiction].
  unfold scale_inf. destruct (Req_dec_T 0 0); [reflexivity|contradiction].
Qed.

(** With a zero rate and zeta = 1 every sample is [R * (0 / 0)]. *)
Lemma inventory_sample_zero_gamma (R_ T t : R) :
  inventory_sample R_ (Fin 1) (Fin 0) T (Fin t) = NaN.
Proof.
  unfold inventory_sample, sinh_gamma_T.
  cbn [sub add neg mul math_exp].
  rewrite div_zero_zero; [reflexivity| |];
    rewrite ?Ropp_0, !Rmult_0_l, exp_0; ring.
Qed.

Lemma trading_speed_sample_zero_gamma (R_ T t : R) :
  trading_speed_sample R_ (Fin 1) (Fin 0) T (Fin t) = NaN.
Proof.
  unfold trading_speed_sample, sinh_gamma_T.
  cbn [sub add neg mul math_exp].
  rewrite div_zero_zero; [reflexivity| |];
    rewrite ?Ropp_0, ?Rmult_0_l, ?exp_0; ring.
Qed.

Lemma sinh_gamma_T_zero_gamma (T : R) : sinh_gamma_T (Fin 1) (Fin 0) T = Fin 0.
Proof.
  rewrite sinh_gamma_T_fin. unfold shared_denominator. f_equal.
  rewrite Ropp_0, !Rmult_0_l, exp_0. ring.
Qed.

(** [compute_zeta] at phi = 0: 1, or NaN when [alpha - b/2] is 0 too. *)
Lemma compute_zeta_phi_zero (alpha b k : R) :
  compute_zeta alpha b 0 k =
  if Req_dec_T (alpha - b / 2) 0 then NaN else Fin 1.
Proof.
  unfold compute_zeta. rewrite Rmult_0_l, np_sqrt_nonneg, sqrt_0 by lra.
  cbn [sub add neg div]. rewrite Ropp_0, !Rplus_0_r.
  destruct (Req_dec_T (alpha - b / 2) 0) as [Hz|Hnz].
  - unfold scale_inf. destruct (Req_dec_T (alpha - b / 2) 0);
      [reflexivity|contradiction].
  - f_equal. apply Rinv_r. exact Hnz.
Qed.

Lemma gamma_phi_zero (k : R) : np_sqrt (Fin (0 / k)) = Fin 0.
Proof.
  unfold Rdiv. rewrite Rmult_0_l, np_sqrt_nonneg, sqrt_0 by lra. reflexivity.
Qed.



Lemma in_linspace_fin (start stop : R) (num : nat) (t : float64) :
  In t (linspace start stop num) -> exists x, t = Fin x.
Proof.
  unfold linspace. intros Ht.
  apply in_map_iff in Ht as (x & <- & _). exists x. reflexivity.
Qed.

End Singular.

(** ** Claims on the model evaluator *)

Section EvaluatorClaims.

Import ClosedForm.











End EvaluatorClaims.

(** ** Claims on invalid and singular inputs *)

Section ErrorClaims.

Import ClosedForm.

Lemma compute_inventory_all_nan (R_ alpha b phi k T : R) :
  k <> 0 ->
  (forall t, In t (linspace 0 T 50) ->
     inventory_sample R_ (compute_zeta alpha b phi k)
       (np_sqrt (Fin (phi / k))) T t = NaN) ->
  compute_inventory R_ alpha b phi k T = Ok (repeat NaN 50, linspace 0 T 50).
Proof.
  intros Hk Hnan. rewrite compute_inventory_ok by assumption.
  rewrite (map_const _ NaN) by assumption.
  rewrite linspace_length. reflexivity.
Qed.

Lemma compute_trading_speed_all_nan (R_ alpha b phi k T : R) :
  k <> 0 ->
  (forall t, In t (linspace 0 T 50) ->
     trading_speed_sample R_ (compute_zeta alpha b phi k)
       (np_sqrt (Fin (phi / k))) T t = NaN) ->
  compute_trading_speed R_ alpha b phi k T = Ok (repeat NaN 50, linspace 0 T 50).
Proof.
  intros Hk Hnan. rewrite compute_trading_speed_ok by assumption.
  rewrite (map_const _ NaN) by assumption.
  rewrite linspace_length. reflexivity.
Qed.


(** phi = 0: every sample is a [0/0]. *)
Lemma zero_phi_all_nan (R_ alpha b k T : R) :
  k <> 0 ->
  compute_inventory R_ alpha b 0 k T = Ok (repeat NaN 50, linspace 0 T 50) /\
  compute_trading_speed R_ alpha b 0 k T = Ok (repeat NaN 50, linspace 0 T 50).
Proof.
  intros Hk. split.
  - apply compute_inventory_all_nan; [assumption|]. intros t Ht.
    apply in_linspace_fin in Ht as (x & ->).
    rewrite compute_zeta_phi_zero, gamma_phi_zero.
    destruct (Req_dec_T (alpha - b / 2) 0).
    + apply inventory_sample_nan_zeta.
    + apply inventory_sample_zero_gamma.
  - apply compute_trading_speed_all_nan; [assumption|]. intros t Ht.
    apply in_linspace_fin in Ht as (x & ->).
    rewrite compute_zeta_phi_zero, gamma_phi_zero.
    destruct (Req_dec_T (alpha - b / 2) 0).
    + apply trading_speed_sample_nan_zeta.
    + apply trading_speed_sample_zero_gamma.
Qed.







(** C8, as stated, fails.  At phi = 0 (alpha = 1e9, b = 0.001, k = 0.01,
    horizon 1) the shared denominator is exactly 0, both functions divide
    by it at every sample, nothing is raised, and 50 NaN samples are
    returned. *)
Lemma zero_phi_counterexample :
  sinh_gamma_T (compute_zeta 1000000000 (1 / 1000) 0 (1 / 100))
    (np_sqrt (Fin (0 / (1 / 100)))) 1 = Fin 0 /\
  compute_inventory 100 1000000000 (1 / 1000) 0 (1 / 100) 1
  = Ok (repeat NaN 50, linspace 0 1 50) /\
  compute_trading_speed 100 1000000000 (1 / 1000) 0 (1 / 100) 1
  = Ok (repeat NaN 50, linspace 0 1 50).
Proof.
  split; [|apply zero_phi_all_nan; lra].
  rewrite compute_zeta_phi_zero, gamma_phi_zero.
  destruct (Req_dec_T (1000000000 - 1 / 1000 / 2) 0); [lra|].
  apply sinh_gamma_T_zero_gamma.
Qed.

(** C8, amended.  For phi = 0 and k > 0 the rate gamma is 0 and no
    limiting formula or explicit condition exists: the shared denominator
    evaluates to 0 (or [compute_zeta] itself is a [0/0] when
    [alpha - b/2 = 0]), the division is carried out at every sample
    without an exception, and both functions return normally 50 samples
    that are all NaN. *)
Theorem zero_phi_divides_by_zero (R_ alpha b k T : R) :
  0 < k ->
  np_sqrt (Fin (0 / k)) = Fin 0 /\
  (alpha - b / 2 <> 0 ->
   sinh_gamma_T (compute_zeta alpha b 0 k) (np_sqrt (Fin (0 / k))) T = Fin 0) /\
  (alpha - b / 2 = 0 -> compute_zeta alpha b 0 k = NaN) /\
  compute_inventory R_ alpha b 0 k T = Ok (repeat NaN 50, linspace 0 T 50) /\
  compute_trading_speed R_ alpha b 0 k T = Ok (repeat NaN 50, linspace 0 T 50).
Proof.
  intros Hk. split; [apply gamma_phi_zero|].
  rewrite compute_zeta_phi_zero, gamma_phi_zero.
  destruct (Req_dec_T (alpha - b / 2) 0) as [Hz|Hnz].
  - split; [intros Hc; contradiction|]. split; [reflexivity|].
    apply zero_phi_all_nan; lra.
  - split; [intros _; apply sinh_gamma_T_zero_gamma|].
    split; [intros Hc; contradiction|]. apply zero_phi_all_nan; lra.
Qed.

Lemma zero_phi_divides_by_zero_witness :
  0 < 1 / 100 /\
  np_sqrt (Fin (0 / (1 / 100))) = Fin 0 /\
  (1000000000 - 1 / 1000 / 2 <> 0 ->
   sinh_gamma_T (compute_zeta 1000000000 (1 / 1000) 0 (1 / 100))
     (np_sqrt (Fin (0 / (1 / 100)))) 1 = Fin 0) /\
  (1000000000 - 1 / 1000 / 2 = 0 ->
   compute_zeta 1000000000 (1 / 1000) 0 (1 / 100) = NaN) /\
  compute_inventory 100 1000000000 (1 / 1000) 0 (1 / 100) 1
  = Ok (repeat NaN 50, linspace 0 1 50) /\
  compute_trading_speed 100 1000000000 (1 / 1000) 0 (1 / 100) 1
  = Ok (repeat NaN 50, linspace 0 1 50).
Proof.
  assert (Hk : 0 < 1 / 100) by lra.
  split.
  - exact Hk.
  - exact (zero_phi_divides_by_zero 100 1000000000 (1 / 1000) (1 / 100) 1 Hk).
Defined.

End ErrorClaims.

(** ** Dictionaries *)

Section DictFacts.

Context {K V : Type} (eq_dec : forall x y : K, {x = y} + {x <> y}).

Implicit Types (d : dict K V) (key : K) (v : V).

Lemma dict_get_set_same d key v :
  dict_get eq_dec (dict_set eq_dec d key v) key = Some v.
Proof.
  induction d as [|[key' v'] d IH]; simpl.
  - destruct (eq_dec key key); [reflexivity|contradiction].
  - destruct (eq_dec key key') as [Heq|Hne] eqn:E; simpl; rewrite E.
    + reflexivity.
    + exact IH.
Qed.

Lemma dict_get_set_other d key key' v :
  key' <> key ->
  dict_get eq_dec (dict_set eq_dec d key v) key' = dict_get eq_dec d key'.
Proof.
  intros Hne. induction d as [|[key0 v0] d IH]; simpl.
  - destruct (eq_dec key' key); [contradiction|reflexivity].
  - destruct (eq_dec key key0) as [->|Hne0]; simpl.
    + destruct (eq_dec key' key0); [contradiction|reflexivity].
    + destruct (eq_dec key' key0); [reflexivity|exact IH].
Qed.

Lemma keys_dict_set d key v :
  keys (dict_set eq_dec d key v) =
  if in_dec eq_dec key (keys d) then keys d else keys d ++ [key].
Proof.
  induction d as [|[key' v'] d IH]; [reflexivity|].
  simpl dict_set. destruct (eq_dec key key') as [->|Hne].
  - unfold keys at 1 2 3. simpl map.
    destruct (in_dec eq_dec key' (key' :: map fst d)) as [_|Hn];
      [reflexivity|exfalso; apply Hn; left; reflexivity].
  - unfold keys in *. simpl map. rewrite IH.
    destruct (in_dec eq_dec key (map fst d)) as [Hin|Hnin];
      destruct (in_dec eq_dec key (key' :: map fst d)) as [Hin'|Hnin'];
      try reflexivity.
    + exfalso. apply Hnin'. right. exact Hin.
    + exfalso. destruct Hin' as [Heq|Hin']; [congruence|contradiction].
Qed.

Lemma in_keys_dict_set d key v key' :
  In key' (keys (dict_set eq_dec d key v)) <-> In key' (keys d) \/ key' = key.
Proof.
  rewrite keys_dict_set.
  destruct (in_dec eq_dec key (keys d)) as [Hin|Hnin].
  - split; [intros H; left; exact H|intros [H| ->]; assumption].
  - rewrite in_app_iff. simpl. split.
    + intros [H|[H|[]]]; [left; exact H|right; symmetry; exact H].
    + intros [H| ->]; [left; exact H|right; left; reflexivity].
Qed.

Lemma NoDup_keys_dict_set d key v :
  NoDup (keys d) -> NoDup (keys (dict_set eq_dec d key v)).
Proof.
  intros Hnd. rewrite keys_dict_set.
  destruct (in_dec eq_dec key (keys d)) as [Hin|Hnin]; [exact Hnd|].
  apply NoDup_app; [exact Hnd|constructor; [intros []|constructor]|].
  intros x Hx [<-|[]]. contradiction.
Qed.

End DictFacts.

(** ** The sweep over phi *)

Section Sweep.

Lemma gen_inventory_loop_sweep (ps : list R) (s : OTS.self) :
  OTS._gen_inventory_loop ps s =
  (d <- sweep (inventory_entry (OTS.b (OTS._params s)) (OTS.k (OTS._params s)))
          ps (OTS.inventory s) ;;
   Ok {| OTS._params := OTS._params s;
         OTS.trading_speed := OTS.trading_speed s;
         OTS.inventory := d |}).
Proof.
  revert s. induction ps as [|p ps IH]; intros s.
  - destruct s; reflexivity.
  - simpl. unfold inventory_entry at 1.
    destruct (compute_inventory _ _ _ _ _ _) as [axis|e]; [|reflexivity].
    simpl. rewrite IH. reflexivity.
Qed.

Lemma gen_trading_speed_loop_sweep (ps : list R) (s : OTS.self) :
  OTS._gen_trading_speed_loop ps s =
  (d <- sweep (trading_speed_entry (OTS.b (OTS._params s)) (OTS.k (OTS._params s)))
          ps (OTS.trading_speed s) ;;
   Ok {| OTS._params := OTS._params s;
         OTS.trading_speed := d;
         OTS.inventory := OTS.inventory s |}).
Proof.
  revert s. induction ps as [|p ps IH]; intros s.
  - destruct s; reflexivity.
  - simpl. unfold trading_speed_entry at 1.
    destruct (compute_trading_speed _ _ _ _ _ _) as [axis|e]; [|reflexivity].
    simpl. rewrite IH. reflexivity.
Qed.

(** The constructor, in terms of the two mappings. *)
Lemma init_sweep (model : OTS.params) :
  OTS.__init__ model =
  (inv <- sweep (inventory_entry (OTS.b model) (OTS.k model)) (OTS.phi model) [] ;;
   spd <- sweep (trading_speed_entry (OTS.b model) (OTS.k model)) (OTS.phi model) [] ;;
   Ok {| OTS._params := model; OTS.trading_speed := spd; OTS.inventory := inv |}).
Proof.
  unfold OTS.__init__, OTS._gen_inventory, OTS._gen_trading_speed.
  rewrite gen_inventory_loop_sweep. simpl.
  destruct (sweep (inventory_entry _ _) _ _) as [inv|e]; [|reflexivity].
  simpl. rewrite gen_trading_speed_loop_sweep. simpl.
  destruct (sweep (trading_speed_entry _ _) _ _); reflexivity.
Qed.

Variable f : R -> result OTS.entry.

(** What a completed loop leaves in the mapping. *)
Lemma sweep_spec (ps : list R) :
  forall d d' : dict R OTS.entry,
  sweep f ps d = Ok d' ->
  (NoDup (keys d) -> NoDup (keys d')) /\
  (forall p, In p (keys d') <-> In p (keys d) \/ In p ps) /\
  (forall p, ~ In p ps -> dict_get Req_dec_T d' p = dict_get Req_dec_T d p) /\
  (forall p, In p ps ->
     exists e, f p = Ok e /\ dict_get Req_dec_T d' p = Some e).
Proof.
  induction ps as [|p0 ps IH]; intros d d' Hrun.
  - injection Hrun as <-.
    split; [tauto|]. split; [intros p; simpl; tauto|].
    split; [reflexivity|]. intros p [].
  - simpl in Hrun. destruct (f p0) as [e0|x] eqn:Hf; [|discriminate].
    simpl in Hrun. apply IH in Hrun as (Hnd & Hkeys & Hout & Hin).
    split; [|split; [|split]].
    + intros H. apply Hnd, NoDup_keys_dict_set, H.
    + intros p. rewrite Hkeys, in_keys_dict_set. simpl.
      split; [intros [[H|H]|H]|intros [H|[H|H]]]; auto.
    + intros p Hp. rewrite Hout by (intros H; apply Hp; right; exact H).
      apply dict_get_set_other. intros ->. apply Hp. left. reflexivity.
    + intros p Hp. destruct (in_dec Req_dec_T p ps) as [Hps|Hps].
      * apply Hin, Hps.
      * destruct Hp as [<-|Hp]; [|contradiction].
        exists e0. split; [exact Hf|].
        rewrite Hout by assumption. apply dict_get_set_same.
Qed.

(** A loop whose body never raises completes. *)
Lemma sweep_total (ps : list R) :
  (forall p, In p ps -> exists e, f p = Ok e) ->
  forall d, exists d', sweep f ps d = Ok d'.
Proof.
  induction ps as [|p0 ps IH]; intros Hf d.
  - exists d. reflexivity.
  - simpl. destruct (Hf p0) as [e He]; [left; reflexivity|].
    rewrite He. simpl. apply IH. intros p Hp. apply Hf. right. exact Hp.
Qed.

End Sweep.

(** ** Claims on the orchestrator *)

Section OrchestratorClaims.

Lemma init_inversion (model : OTS.params) (s : OTS.self) :
  OTS.__init__ model = Ok s ->
  exists inv spd,
    sweep (inventory_entry (OTS.b model) (OTS.k model)) (OTS.phi model) []
    = Ok inv /\
    sweep (trading_speed_entry (OTS.b model) (OTS.k model)) (OTS.phi model) []
    = Ok spd /\
    s = {| OTS._params := model; OTS.trading_speed := spd; OTS.inventory := inv |}.
Proof.
  rewrite init_sweep. intros Hrun.
  destruct (sweep (inventory_entry _ _) _ _) as [inv|e]; [|discriminate].
  destruct (sweep (trading_speed_entry _ _) _ _) as [spd|e]; [|discriminate].
  injection Hrun as <-. exists inv, spd. repeat split.
Qed.

(** Construction completes whenever k is not zero. *)
Lemma init_total (model : OTS.params) :
  OTS.k model <> 0 -> exists s, OTS.__init__ model = Ok s.
Proof.
  intros Hk. rewrite init_sweep.
  destruct (sweep_total (inventory_entry (OTS.b model) (OTS.k model))
              (OTS.phi model)) with (d := @nil (R * OTS.entry)) as [inv ->].
  { intros p _. unfold inventory_entry.
    rewrite compute_inventory_ok by assumption. eexists. reflexivity. }
  destruct (sweep_total (trading_speed_entry (OTS.b model) (OTS.k model))
              (OTS.phi model)) with (d := @nil (R * OTS.entry)) as [spd ->].
  { intros p _. unfold trading_speed_entry.
    rewrite compute_trading_speed_ok by assumption. eexists. reflexivity. }
  eexists. reflexivity.
Qed.

Lemma compute_inventory_times (R_ alpha b phi k T : R) (values times : ndarray) :
  compute_inventory R_ alpha b phi k T = Ok (values, times) ->
  times = linspace 0 T 50.
Proof.
  unfold compute_inventory, py_truediv.
  destruct (Req_dec_T k 0); [discriminate|]. simpl.
  intros H. injection H as _ <-. reflexivity.
Qed.

Lemma compute_trading_speed_times (R_ alpha b phi k T : R) (values times : ndarray) :
  compute_trading_speed R_ alpha b phi k T = Ok (values, times) ->
  times = linspace 0 T 50.
Proof.
  unfold compute_trading_speed, py_truediv.
  destruct (Req_dec_T k 0); [discriminate|]. simpl.
  intros H. injection H as _ <-. reflexivity.
Qed.

Lemma inventory_entry_inversion (b k p : R) (e : OTS.entry) :
  inventory_entry b k p = Ok e ->
  exists values,
    compute_inventory 100 1000000000 b p k 1 = Ok (values, linspace 0 1 50) /\
    e = [("inventory"%string, values); ("time"%string, linspace 0 1 50)].
Proof.
  unfold inventory_entry.
  destruct (compute_inventory _ _ _ _ _ _) as [[values times]|x] eqn:Hrun;
    [|discriminate].
  simpl. intros H. injection H as <-.
  apply compute_inventory_times in Hrun as Ht. subst times.
  exists values. split; reflexivity.
Qed.

Lemma trading_speed_entry_inversion (b k p : R) (e : OTS.entry) :
  trading_speed_entry b k p = Ok e ->
  exists values,
    compute_trading_speed 100 1000000000 b p k 1 = Ok (values, linspace 0 1 50) /\
    e = [("trading_speed"%string, values); ("time"%string, linspace 0 1 50)].
Proof.
  unfold trading_speed_entry.
  destruct (compute_trading_speed _ _ _ _ _ _) as [[values times]|x] eqn:Hrun;
    [|discriminate].
  simpl. intros H. injection H as <-.
  apply compute_trading_speed_times in Hrun as Ht. subst times.
  exists values. split; reflexivity.
Qed.

(** C9.  After a completed sweep, each configured phi is the key of exactly
    one entry of the inventory mapping and of exactly one entry of the
    trading-speed mapping, and the two entries hold equal time axes: the
    50-sample grid. *)
Theorem sweep_one_entry_per_phi (model : OTS.params) (s : OTS.self) :
  OTS.__init__ model = Ok s ->
  forall p : R, In p (OTS.phi model) ->
    count_occ Req_dec_T (keys (OTS.inventory s)) p = 1%nat /\
    count_occ Req_dec_T (keys (OTS.trading_speed s)) p = 1%nat /\
    exists (e_inv e_spd : OTS.entry) (time_inv time_spd : ndarray),
      dict_get Req_dec_T (OTS.inventory s) p = Some e_inv /\
      dict_get Req_dec_T (OTS.trading_speed s) p = Some e_spd /\
      dict_get string_dec e_inv "time"%string = Some time_inv /\
      dict_get string_dec e_spd "time"%string = Some time_spd /\
      time_inv = time_spd /\
      length time_inv = 50%nat /\
      time_inv = linspace 0 1 50.
Proof.
  intros Hrun p Hp.
  apply init_inversion in Hrun as (inv & spd & Hinv & Hspd & ->). simpl.
  apply sweep_spec in Hinv as (Hnd_i & Hkeys_i & _ & Hin_i).
  apply sweep_spec in Hspd as (Hnd_s & Hkeys_s & _ & Hin_s).
  split; [|split].
  - apply NoDup_count_occ'; [apply Hnd_i; constructor|].
    apply Hkeys_i. right. exact Hp.
  - apply NoDup_count_occ'; [apply Hnd_s; constructor|].
    apply Hkeys_s. right. exact Hp.
  - destruct (Hin_i p Hp) as (e_inv & He_inv & Hget_i).
    destruct (Hin_s p Hp) as (e_spd & He_spd & Hget_s).
    apply inventory_entry_inversion in He_inv as (vi & _ & ->).
    apply trading_speed_entry_inversion in He_spd as (vs & _ & ->).
    eexists _, _, (linspace 0 1 50), (linspace 0 1 50).
    split; [exact Hget_i|]. split; [exact Hget_s|].
    split; [reflexivity|]. split; [reflexivity|]. split; [reflexivity|].
    split; [apply linspace_length|reflexivity].
Qed.

Lemma example_model_k : OTS.k example_model <> 0.
Proof. simpl. lra. Qed.

Lemma sweep_one_entry_per_phi_witness :
  exists s : OTS.self,
    OTS.__init__ example_model = Ok s /\
    forall p : R, In p (OTS.phi example_model) ->
      count_occ Req_dec_T (keys (OTS.inventory s)) p = 1%nat /\
      count_occ Req_dec_T (keys (OTS.trading_speed s)) p = 1%nat /\
      exists (e_inv e_spd : OTS.entry) (time_inv time_spd : ndarray),
        dict_get Req_dec_T (OTS.inventory s) p = Some e_inv /\
        dict_get Req_dec_T (OTS.trading_speed s) p = Some e_spd /\
        dict_get string_dec e_inv "time"%string = Some time_inv /\
        dict_get string_dec e_spd "time"%string = Some time_spd /\
        time_inv = time_spd /\
        length time_inv = 50%nat /\
        time_inv = linspace 0 1 50.
Proof.
  destruct (init_total example_model example_model_k) as [s Hs].
  exists s. split.
  - exact Hs.
  - exact (sweep_one_entry_per_phi example_model s Hs).
Defined.

(** C10.  For every configured phi the orchestrator calls the evaluator
    with share count 100, alpha = 1e9 and time horizon 1, with b and k
    from the configuration: the entry stored under phi is the result of
    that call, its time axis runs from 0 to 1, and the two mappings are
    the same for every configuration with the same b, k and phi, whatever
    else (a time horizon, say) it holds. *)
Theorem sweep_fixed_arguments (model : OTS.params) (s : OTS.self) :
  OTS.__init__ model = Ok s ->
  (forall p : R, In p (OTS.phi model) ->
     exists inv spd times_i times_s : ndarray,
       compute_inventory 100 1000000000 (OTS.b model) p (OTS.k model) 1
       = Ok (inv, times_i) /\
       compute_trading_speed 100 1000000000 (OTS.b model) p (OTS.k model) 1
       = Ok (spd, times_s) /\
       dict_get Req_dec_T (OTS.inventory s) p
       = Some [("inventory"%string, inv); ("time"%string, times_i)] /\
       dict_get Req_dec_T (OTS.trading_speed s) p
       = Some [("trading_speed"%string, spd); ("time"%string, times_s)] /\
       nth_error times_i 0 = Some (Fin 0) /\
       nth_error times_i 49 = Some (Fin 1) /\
       nth_error times_s 0 = Some (Fin 0) /\
       nth_error times_s 49 = Some (Fin 1)) /\
  (forall model' : OTS.params,
     OTS.b model' = OTS.b model -> OTS.k model' = OTS.k model ->
     OTS.phi model' = OTS.phi model ->
     exists s' : OTS.self,
       OTS.__init__ model' = Ok s' /\
       OTS.inventory s' = OTS.inventory s /\
       OTS.trading_speed s' = OTS.trading_speed s).
Proof.
  intros Hrun.
  apply init_inversion in Hrun as (inv & spd & Hinv & Hspd & ->). simpl.
  split.
  - intros p Hp.
    apply sweep_spec in Hinv as (_ & _ & _ & Hin_i).
    apply sweep_spec in Hspd as (_ & _ & _ & Hin_s).
    destruct (Hin_i p Hp) as (e_inv & He_inv & Hget_i).
    destruct (Hin_s p Hp) as (e_spd & He_spd & Hget_s).
    apply inventory_entry_inversion in He_inv as (vi & Hci & ->).
    apply trading_speed_entry_inversion in He_spd as (vs & Hcs & ->).
    assert (H0 : nth_error (linspace 0 1 50) 0 = Some (Fin 0)).
    { rewrite linspace_50 by lia. unfold ClosedForm.grid. simpl INR.
      do 2 f_equal. field. }
    assert (H49 : nth_error (linspace 0 1 50) 49 = Some (Fin 1)).
    { rewrite linspace_50 by lia. unfold ClosedForm.grid. do 2 f_equal.
      simpl (50 - 1)%nat. field. apply not_0_INR. lia. }
    exists vi, vs, (linspace 0 1 50), (linspace 0 1 50).
    repeat split; assumption.
  - intros model' Hb Hk Hphi.
    eexists. rewrite init_sweep, Hb, Hk, Hphi, Hinv. simpl. rewrite Hspd.
    simpl. split; [reflexivity|]. split; reflexivity.
Qed.

Lemma sweep_fixed_arguments_witness :
  exists s : OTS.self,
    OTS.__init__ example_model = Ok s /\
    (forall p : R, In p (OTS.phi example_model) ->
       exists inv spd times_i times_s : ndarray,
         compute_inventory 100 1000000000 (OTS.b example_model) p
           (OTS.k example_model) 1 = Ok (inv, times_i) /\
         compute_trading_speed 100 1000000000 (OTS.b example_model) p
           (OTS.k example_model) 1 = Ok (spd, times_s) /\
         dict_get Req_dec_T (OTS.inventory s) p
         = Some [("inventory"%string, inv); ("time"%string, times_i)] /\
         dict_get Req_dec_T (OTS.trading_speed s) p
         = Some [("trading_speed"%string, spd); ("time"%string, times_s)] /\
         nth_error times_i 0 = Some (Fin 0) /\
         nth_error times_i 49 = Some (Fin 1) /\
         nth_error times_s 0 = Some (Fin 0) /\
         nth_error times_s 49 = Some (Fin 1)) /\
    (forall model' : OTS.params,
       OTS.b model' = OTS.b example_model ->
       OTS.k model' = OTS.k example_model ->
       OTS.phi model' = OTS.phi example_model ->
       exists s' : OTS.self,
         OTS.__init__ model' = Ok s' /\
         OTS.inventory s' = OTS.inventory s /\
         OTS.trading_speed s' = OTS.trading_speed s).
Proof.
  destruct (init_total example_model example_model_k) as [s Hs].
  exists s. split.
  - exact Hs.
  - exact (sweep_fixed_arguments example_model s Hs).
Defined.

End OrchestratorClaims.

(** ** Shape of the trajectories where the closed form is regular *)

Section Shape.

Import ClosedForm.










End Shape.

Section ShapeOfResults.

Import ClosedForm.








End ShapeOfResults.

Section ShapeInTheRegularRegion.

Import ClosedForm.

Variables R_ alpha b phi k T : R.
Hypothesis HR : 0 < R_.
Hypothesis Hphi : 0 < phi.
Hypothesis Hk : 0 < k.
Hypothesis Hregion : sqrt (phi * k) < alpha - b / 2.






End ShapeInTheRegularRegion.

Section ShapeWitnesses.

Import ClosedForm.





End ShapeWitnesses.

Section EdgeInputs.

Import ClosedForm.








End EdgeInputs.

(** ** More on the sweep *)

Section SweepKeys.

Lemma sweep_keys_agree (f g : R -> result OTS.entry) (ps : list R) :
  forall d1 d2 d1' d2' : dict R OTS.entry,
  keys d1 = keys d2 ->
  sweep f ps d1 = Ok d1' -> sweep g ps d2 = Ok d2' ->
  keys d1' = keys d2'.
Proof.
  induction ps as [|p ps IH]; intros d1 d2 d1' d2' Hkeys H1 H2.
  - injection H1 as <-. injection H2 as <-. exact Hkeys.
  - simpl in H1, H2.
    destruct (f p) as [e1|x1]; [|discriminate].
    destruct (g p) as [e2|x2]; [|discriminate].
    simpl in H1, H2. eapply IH; [|exact H1|exact H2].
    rewrite !keys_dict_set, Hkeys. reflexivity.
Qed.

Lemma sweep_keys_fresh (f : R -> result OTS.entry) (ps : list R) :
  forall d d' : dict R OTS.entry,
  NoDup (keys d ++ ps) ->
  sweep f ps d = Ok d' ->
  keys d' = keys d ++ ps.
Proof.
  induction ps as [|p ps IH]; intros d d' Hnd Hrun.
  - injection Hrun as <-. rewrite app_nil_r. reflexivity.
  - simpl in Hrun. destruct (f p) as [e|x]; [|discriminate]. simpl in Hrun.
    assert (Hfresh : ~ In p (keys d)).
    { apply NoDup_remove_2 in Hnd. intros Hin. apply Hnd.
      apply in_or_app. left. exact Hin. }
    assert (Hkeys : keys (dict_set Req_dec_T d p e) = keys d ++ [p]).
    { rewrite keys_dict_set.
      destruct (in_dec Req_dec_T p (keys d)); [contradiction|reflexivity]. }
    apply IH in Hrun.
    + rewrite Hrun, Hkeys, <- app_assoc. reflexivity.
    + rewrite Hkeys, <- app_assoc. exact Hnd.
Qed.


End SweepKeys.

Section SweepExtras.

Import ClosedForm.


(** The two mappings have the same keys in the same order: the configured
    values of phi, each once, and nothing else; in configuration order
    when no phi is repeated. *)
Theorem mapping_keys (model : OTS.params) (s : OTS.self) :
  OTS.__init__ model = Ok s ->
  keys (OTS.inventory s) = keys (OTS.trading_speed s) /\
  NoDup (keys (OTS.inventory s)) /\
  (forall p : R, In p (keys (OTS.inventory s)) <-> In p (OTS.phi model)) /\
  (NoDup (OTS.phi model) -> keys (OTS.inventory s) = OTS.phi model) /\
  OTS._params s = model.
Proof.
  intros Hrun.
  apply init_inversion in Hrun as (inv & spd & Hinv & Hspd & ->). simpl.
  split; [exact (sweep_keys_agree _ _ _ _ _ _ _ eq_refl Hinv Hspd)|].
  pose proof (sweep_spec _ _ _ _ Hinv) as (Hnd & Hkeys & _ & _).
  split; [apply Hnd; constructor|].
  split; [intros p; rewrite Hkeys; simpl; tauto|].
  split; [|reflexivity].
  intros Hphi. exact (sweep_keys_fresh _ (OTS.phi model) [] inv Hphi Hinv).
Qed.

Lemma mapping_keys_witness :
  exists s : OTS.self,
    OTS.__init__ example_model = Ok s /\
    keys (OTS.inventory s) = keys (OTS.trading_speed s) /\
    NoDup (keys (OTS.inventory s)) /\
    (forall p : R, In p (keys (OTS.inventory s)) <-> In p (OTS.phi example_model)) /\
    (NoDup (OTS.phi example_model) ->
     keys (OTS.inventory s) = OTS.phi example_model) /\
    OTS._params s = example_model.
Proof.
  destruct (init_total example_model example_model_k) as [s Hs].
  exists s. split.
  - exact Hs.
  - exact (mapping_keys example_model s Hs).
Defined.

End SweepExtras.

Section SweepEntries.

Import ClosedForm.


Lemma init_entries (model : OTS.params) (s : OTS.self) (p : R) :
  OTS.__init__ model = Ok s -> In p (OTS.phi model) ->
  OTS.k model <> 0 /\
  exists inv spd : ndarray,
    compute_inventory 100 1000000000 (OTS.b model) p (OTS.k model) 1
    = Ok (inv, linspace 0 1 50) /\
    compute_trading_speed 100 1000000000 (OTS.b model) p (OTS.k model) 1
    = Ok (spd, linspace 0 1 50) /\
    dict_get Req_dec_T (OTS.inventory s) p
    = Some [("inventory"%string, inv); ("time"%string, linspace 0 1 50)] /\
    dict_get Req_dec_T (OTS.trading_speed s) p
    = Some [("trading_speed"%string, spd); ("time"%string, linspace 0 1 50)].
Proof.
  intros Hrun Hp.
  apply init_inversion in Hrun as (inv & spd & Hinv & Hspd & ->). simpl.
  apply sweep_spec in Hinv as (_ & _ & _ & Hin_i).
  apply sweep_spec in Hspd as (_ & _ & _ & Hin_s).
  destruct (Hin_i p Hp) as (e_inv & He_inv & Hget_i).
  destruct (Hin_s p Hp) as (e_spd & He_spd & Hget_s).
  apply inventory_entry_inversion in He_inv as (vi & Hci & ->).
  apply trading_speed_entry_inversion in He_spd as (vs & Hcs & ->).
  split.
  - intros Hk. rewrite Hk, compute_inventory_k_zero in Hci. discriminate.
  - exists vi, vs. repeat split; assumption.
Qed.

(** A configured phi = 0 does not abort the sweep: its entries are stored
    like any other, with 50 NaN values in both mappings. *)
Theorem zero_phi_entry (model : OTS.params) (s : OTS.self) :
  OTS.__init__ model = Ok s -> In 0 (OTS.phi model) ->
  dict_get Req_dec_T (OTS.inventory s) 0
  = Some [("inventory"%string, repeat NaN 50);
          ("time"%string, linspace 0 1 50)] /\
  dict_get Req_dec_T (OTS.trading_speed s) 0
  = Some [("trading_speed"%string, repeat NaN 50);
          ("time"%string, linspace 0 1 50)].
Proof.
  intros Hrun Hp.
  destruct (init_entries model s 0 Hrun Hp)
    as (Hk & inv & spd & Hci & Hcs & Hgi & Hgs).
  destruct (zero_phi_all_nan 100 1000000000 (OTS.b model) (OTS.k model) 1 Hk)
    as [Hni Hns].
  rewrite Hni in Hci. rewrite Hns in Hcs.
  injection Hci as <-. injection Hcs as <-. split; assumption.
Qed.

Lemma zero_phi_entry_witness :
  exists s : OTS.self,
    OTS.__init__
      {| OTS.b := 1 / 1000; OTS.k := 1 / 100; OTS.phi := [1 / 100; 0];
         OTS.other_entries := [] |} = Ok s /\
    dict_get Req_dec_T (OTS.inventory s) 0
    = Some [("inventory"%string, repeat NaN 50);
            ("time"%string, linspace 0 1 50)] /\
    dict_get Req_dec_T (OTS.trading_speed s) 0
    = Some [("trading_speed"%string, repeat NaN 50);
            ("time"%string, linspace 0 1 50)].
Proof.
  assert (Hk : OTS.k {| OTS.b := 1 / 1000; OTS.k := 1 / 100;
                        OTS.phi := [1 / 100; 0]; OTS.other_entries := [] |} <> 0)
    by (simpl; lra).
  destruct (init_total _ Hk) as [s Hs].
  exists s. split.
  - exact Hs.
  - apply (zero_phi_entry _ s Hs). right. left. reflexivity.
Defined.



(** Entries do not interfere: what is stored under a phi depends on b, k
    and that phi only, not on which other values of phi are swept. *)
Theorem entries_independent (m1 m2 : OTS.params) (s1 s2 : OTS.self) (p : R) :
  OTS.__init__ m1 = Ok s1 -> OTS.__init__ m2 = Ok s2 ->
  OTS.b m1 = OTS.b m2 -> OTS.k m1 = OTS.k m2 ->
  In p (OTS.phi m1) -> In p (OTS.phi m2) ->
  dict_get Req_dec_T (OTS.inventory s1) p
  = dict_get Req_dec_T (OTS.inventory s2) p /\
  dict_get Req_dec_T (OTS.trading_speed s1) p
  = dict_get Req_dec_T (OTS.trading_speed s2) p /\
  dict_get Req_dec_T (OTS.inventory s1) p <> None.
Proof.
  intros H1 H2 Hb Hk Hp1 Hp2.
  destruct (init_entries m1 s1 p H1 Hp1) as (_ & i1 & v1 & Hci1 & Hcs1 & Hgi1 & Hgs1).
  destruct (init_entries m2 s2 p H2 Hp2) as (_ & i2 & v2 & Hci2 & Hcs2 & Hgi2 & Hgs2).
  rewrite Hb, Hk, Hci2 in Hci1. rewrite Hb, Hk, Hcs2 in Hcs1.
  injection Hci1 as <-. injection Hcs1 as <-.
  rewrite Hgi1, Hgi2, Hgs1, Hgs2. repeat split. discriminate.
Qed.

Lemma entries_independent_witness :
  exists s1 s2 : OTS.self,
    OTS.__init__ example_model = Ok s1 /\
    OTS.__init__
      {| OTS.b := 1 / 1000; OTS.k := 1 / 100; OTS.phi := [1 / 100];
         OTS.other_entries := [] |} = Ok s2 /\
    dict_get Req_dec_T (OTS.inventory s1) (1 / 100)
    = dict_get Req_dec_T (OTS.inventory s2) (1 / 100) /\
    dict_get Req_dec_T (OTS.trading_speed s1) (1 / 100)
    = dict_get Req_dec_T (OTS.trading_speed s2) (1 / 100) /\
    dict_get Req_dec_T (OTS.inventory s1) (1 / 100) <> None.
Proof.
  assert (Hk : OTS.k {| OTS.b := 1 / 1000; OTS.k := 1 / 100;
                        OTS.phi := [1 / 100]; OTS.other_entries := [] |} <> 0)
    by (simpl; lra).
  destruct (init_total example_model example_model_k) as [s1 Hs1].
  destruct (init_total _ Hk) as [s2 Hs2].
  exists s1, s2. split; [exact Hs1|]. split; [exact Hs2|].
  apply (entries_independent example_model _ s1 s2 (1 / 100) Hs1 Hs2).
  - reflexivity.
  - reflexivity.
  - right. left. reflexivity.
  - left. reflexivity.
Defined.

End SweepEntries.

(** ** Drawing the sweep *)

Section Drawing.

Import PlottingEngine.

Lemma draw_spec (call : nat -> R -> outcome plot_call) (ps : list R) :
  forall (idx : nat) (cs : list plot_call) (r : option py_error),
  draw call idx ps = (cs, r) ->
  (forall i c, nth_error cs i = Some c ->
     exists p, nth_error ps i = Some p /\ call (idx + i)%nat p = Done c) /\
  match r with
  | None => length cs = length ps
  | Some e =>
      exists p, nth_error ps (length cs) = Some p /\
                call (idx + length cs)%nat p = Fail e
  end.
Proof.
  induction ps as [|p ps IH]; intros idx cs r Hrun; simpl in Hrun.
  - injection Hrun as <- <-. split; [|reflexivity].
    intros [|i] c H; discriminate.
  - destruct (call idx p) as [c0|e0] eqn:Hcall.
    + destruct (draw call (S idx) ps) as [cs' r'] eqn:Hrest.
      injection Hrun as <- <-. apply IH in Hrest as [Hcs Hr]. split.
      * intros [|i] c H; simpl in H.
        -- injection H as <-. exists p. rewrite Nat.add_0_r. split; [reflexivity|exact Hcall].
        -- destruct (Hcs i c H) as (q & Hq & Hc). exists q.
           rewrite Nat.add_succ_r. split; assumption.
      * destruct r' as [e|]; simpl.
        -- destruct Hr as (q & Hq & Hc). exists q.
           rewrite Nat.add_succ_r. split; assumption.
        -- f_equal. exact Hr.
    + injection Hrun as <- <-. split.
      * intros [|i] c H; discriminate.
      * exists p. simpl. rewrite Nat.add_0_r. split; [reflexivity|exact Hcall].
Qed.

Variables (model : OTS.params) (s : OTS.self).
Hypothesis Hrun : OTS.__init__ model = Ok s.

Lemma nth_key_entries (i : nat) (p : R) :
  nth_error (keys (OTS.inventory s)) i = Some p ->
  exists inv spd : ndarray,
    dict_get Req_dec_T (OTS.inventory s) p
    = Some [("inventory"%string, inv); ("time"%string, linspace 0 1 50)] /\
    dict_get Req_dec_T (OTS.trading_speed s) p
    = Some [("trading_speed"%string, spd); ("time"%string, linspace 0 1 50)].
Proof.
  intros Hi. apply nth_error_In in Hi.
  assert (Hp : In p (OTS.phi model)).
  { pose proof Hrun as H.
    apply init_inversion in H as (inv & spd & Hinv & _ & ->).
    apply sweep_spec in Hinv as (_ & Hkeys & _ & _).
    apply Hkeys in Hi as [[]|Hi]. exact Hi. }
  destruct (init_entries model s p Hrun Hp) as (_ & inv & spd & _ & _ & Hgi & Hgs).
  exists inv, spd. split; assumption.
Qed.


Lemma plot_inventory_call_ok (i idx : nat) (p : R) :
  nth_error (keys (OTS.inventory s)) i = Some p ->
  exists inv spd : ndarray,
    dict_get Req_dec_T (OTS.inventory s) p
    = Some [("inventory"%string, inv); ("time"%string, linspace 0 1 50)] /\
    dict_get Req_dec_T (OTS.trading_speed s) p
    = Some [("trading_speed"%string, spd); ("time"%string, linspace 0 1 50)] /\
    plot_inventory_call s idx p
    = Done {| axes := current_axes; x := inv; y := linspace 0 1 50;
              label := p; alpha := None; color := None |} /\
    ax1_call s idx p
    = and_then (list_getitem colours idx) (fun c =>
        Done {| axes := ax1; x := linspace 0 1 50; y := inv; label := p;
                alpha := Some (1 / 2); color := Some c |}) /\
    ax2_call s idx p
    = and_then (list_getitem colours idx) (fun c =>
        Done {| axes := ax2; x := linspace 0 1 50; y := spd; label := p;
                alpha := Some (1 / 2); color := Some c |}).
Proof.
  intros Hi. destruct (nth_key_entries i p Hi) as (inv & spd & Hgi & Hgs).
  exists inv, spd. split; [exact Hgi|]. split; [exact Hgs|].
  unfold plot_inventory_call, ax1_call, ax2_call, getitem.
  rewrite Hgi, Hgs. repeat split.
Qed.


End Drawing.

Section Palette.

Import PlottingEngine.

Lemma colours_getitem (i : nat) :
  ((i < 4)%nat ->
   exists col, nth_error colours i = Some col /\ list_getitem colours i = Done col)
  /\ ((4 <= i)%nat -> list_getitem colours i = Fail IndexError).
Proof.
  split.
  - intros Hi. unfold list_getitem.
    destruct i as [|[|[|[|i]]]]; try lia; eexists; split; reflexivity.
  - intros Hi. unfold list_getitem.
    assert (H : nth_error colours i = None) by (apply nth_error_None; simpl; lia).
    rewrite H. reflexivity.
Qed.

(** A loop that fails with [IndexError] exactly from index 4 on. *)
Lemma draw_palette (call : nat -> R -> outcome plot_call) (ps : list R)
    (cs : list plot_call) (r : option py_error) :
  (forall i p, nth_error ps i = Some p ->
     ((i < 4)%nat -> exists c, call i p = Done c) /\
     ((4 <= i)%nat -> call i p = Fail IndexError)) ->
  draw call 0 ps = (cs, r) ->
  ((length ps <= 4)%nat -> r = None /\ length cs = length ps) /\
  ((4 < length ps)%nat -> r = Some IndexError /\ length cs = 4%nat).
Proof.
  intros Hcall Hdraw. apply draw_spec in Hdraw as [Hcs Hr]. simpl in Hcs, Hr.
  assert (Hshort : (length cs <= 4)%nat).
  { destruct (Nat.le_gt_cases (length cs) 4) as [H|H]; [exact H|].
    destruct (nth_error cs 4) as [c|] eqn:Hc;
      [|apply nth_error_None in Hc; lia].
    destruct (Hcs 4%nat c Hc) as (p & Hp & Hdone).
    destruct (Hcall 4%nat p Hp) as [_ Hfail].
    rewrite Hfail in Hdone by lia. discriminate. }
  destruct r as [e|].
  - destruct Hr as (p & Hp & Hfail).
    assert (Hlt : (length cs < length ps)%nat)
      by (apply nth_error_Some; congruence).
    destruct (Hcall _ p Hp) as [Hok Hbad].
    destruct (Nat.lt_ge_cases (length cs) 4) as [H|H].
    + destruct (Hok H) as [c Hc]. rewrite Hc in Hfail. discriminate.
    + rewrite Hbad in Hfail by exact H. injection Hfail as <-.
      split; [intros; lia|]. intros _. split; [reflexivity|lia].
  - split; [intros _; split; [reflexivity|exact Hr]|]. intros; lia.
Qed.

Variables (model : OTS.params) (s : OTS.self).
Hypothesis Hrun : OTS.__init__ model = Ok s.

Lemma ax1_call_palette (i : nat) (p : R) :
  nth_error (keys (OTS.inventory s)) i = Some p ->
  ((i < 4)%nat -> exists c, ax1_call s i p = Done c) /\
  ((4 <= i)%nat -> ax1_call s i p = Fail IndexError).
Proof.
  intros Hp.
  destruct (plot_inventory_call_ok model s Hrun i i p Hp)
    as (inv & spd & _ & _ & _ & H1 & _).
  rewrite H1. destruct (colours_getitem i) as [Hok Hbad]. split.
  - intros Hi. destruct (Hok Hi) as (col & _ & ->). eexists. reflexivity.
  - intros Hi. rewrite (Hbad Hi). reflexivity.
Qed.



(** With more than four distinct values of phi the combined plot raises
    [IndexError] at the fifth inventory curve: exactly four curves have
    been issued, all on the first axes, and no trading-speed curve. *)
Theorem plot_beyond_palette :
  (4 < length (keys (OTS.inventory s)))%nat ->
  exists c1 : list plot_call,
    plot_inventory_and_trading_speed s = (c1, Some IndexError) /\
    length c1 = 4%nat /\
    Forall (fun c => axes c = ax1) c1.
Proof.
  intros Hlen. unfold plot_inventory_and_trading_speed.
  destruct (draw (ax1_call s) 0 (keys (OTS.inventory s))) as [c1 r1] eqn:Hd1.
  destruct (draw_palette _ _ _ _ ax1_call_palette Hd1) as [_ H1].
  destruct (H1 Hlen) as [-> Hl1].
  exists c1. split; [reflexivity|]. split; [exact Hl1|].
  apply draw_spec in Hd1 as [Hcs1 _].
  apply Forall_forall. intros c Hc.
  apply In_nth_error in Hc as [i Hi].
  destruct (Hcs1 i c Hi) as (p & Hp & Hcall). simpl in Hcall.
  destruct (plot_inventory_call_ok model s Hrun i i p Hp)
    as (inv & spd & _ & _ & _ & Hc1 & _).
  rewrite Hc1 in Hcall. unfold and_then in Hcall.
  destruct (list_getitem colours i); [|discriminate].
  injection Hcall as <-. reflexivity.
Qed.

End Palette.

Section DrawingWitnesses.

Import PlottingEngine.


Lemma init_keys_distinct (model : OTS.params) (s : OTS.self) :
  OTS.__init__ model = Ok s -> NoDup (OTS.phi model) ->
  keys (OTS.inventory s) = OTS.phi model.
Proof.
  intros Hrun Hnd.
  apply init_inversion in Hrun as (inv & spd & Hinv & _ & ->). simpl.
  exact (sweep_keys_fresh _ (OTS.phi model) [] inv Hnd Hinv).
Qed.



Lemma five_distinct : NoDup [1; 2; 3; 4; 5].
Proof.
  repeat constructor; simpl; intros H;
    repeat (destruct H as [H|H]; [lra|]); exact H.
Qed.

Lemma plot_beyond_palette_witness :
  exists (s : OTS.self) (c1 : list plot_call),
    OTS.__init__
      {| OTS.b := 1 / 1000; OTS.k := 1 / 100; OTS.phi := [1; 2; 3; 4; 5];
         OTS.other_entries := [] |} = Ok s /\
    (4 < length (keys (OTS.inventory s)))%nat /\
    plot_inventory_and_trading_speed s = (c1, Some IndexError) /\
    length c1 = 4%nat /\
    Forall (fun c => axes c = ax1) c1.
Proof.
  assert (Hk : OTS.k {| OTS.b := 1 / 1000; OTS.k := 1 / 100;
                        OTS.phi := [1; 2; 3; 4; 5];
                        OTS.other_entries := [] |} <> 0)
    by (simpl; lra).
  destruct (init_total _ Hk) as [s Hs].
  assert (Hlen : (4 < length (keys (OTS.inventory s)))%nat).
  { rewrite (init_keys_distinct _ s Hs five_distinct). simpl. lia. }
  destruct (plot_beyond_palette _ s Hs Hlen) as (c1 & Hplot & Hl1 & Hax).
  exists s, c1. repeat split; assumption.
Defined.

End DrawingWitnesses.
